(** * BigQuery [Job]: cached completion state, error parsing and [wait]

    A shallow embedding of [sources/sdk/pygcp/gcp/bigquery/_job.py].

    The Python object [self] is a record that is threaded through every
    method together with a trace of the calls made to the outside world
    ([self._api.jobs_get] and [time.sleep]).  Methods live in a small
    state-and-exception monad; Python exceptions are the [Raise] outcome,
    and the state reached when an exception escapes is kept, because the
    assignments made before the exception stay visible on [self]. *)

From Stdlib Require Import String Ascii List ZArith Bool Lia.
Import ListNotations.
Open Scope string_scope.
Open Scope list_scope.
Set Warnings "-register-all".

(** ** Python values of a decoded response *)

(** The response of [jobs_get] is a decoded JSON document.  A [dict] is an
    association list read through [assoc] (first binding of a key). *)
Inductive value : Type :=
| VNone
| VBool (b : bool)
| VNum (n : Z)
| VStr (s : string)
| VList (items : list value)
| VDict (entries : list (string * value)).

Inductive exn : Type :=
| ApiError (msg : string)
| TypeError
| KeyError
| AttributeError
| ValueError.

Inductive outcome (A : Type) : Type :=
| Return (a : A)
| Raise (e : exn).
Arguments Return {A} a.
Arguments Raise {A} e.

Fixpoint assoc (key : string) (entries : list (string * value)) : option value :=
  match entries with
  | [] => None
  | (k, v) :: rest => if String.eqb k key then Some v else assoc key rest
  end.

(** [needle in haystack] on two strings. *)
Fixpoint substring_of (needle haystack : string) : bool :=
  String.prefix needle haystack
  || match haystack with
     | EmptyString => false
     | String _ rest => substring_of needle rest
     end.

Definition is_str (key : string) (v : value) : bool :=
  match v with
  | VStr s => String.eqb s key
  | _ => false
  end.

(** [key in obj] for a string [key]. *)
Definition py_contains (obj : value) (key : string) : outcome bool :=
  match obj with
  | VDict entries => Return (match assoc key entries with Some _ => true | None => false end)
  | VList items => Return (existsb (is_str key) items)
  | VStr s => Return (substring_of key s)
  | VNone | VBool _ | VNum _ => Raise TypeError
  end.

(** [obj[key]] for a string [key]. *)
Definition py_getitem (obj : value) (key : string) : outcome value :=
  match obj with
  | VDict entries =>
      match assoc key entries with
      | Some v => Return v
      | None => Raise KeyError
      end
  | _ => Raise TypeError
  end.

(** [obj.get(key, None)]. *)
Definition py_get (obj : value) (key : string) : outcome value :=
  match obj with
  | VDict entries =>
      match assoc key entries with
      | Some v => Return v
      | None => Return VNone
      end
  | _ => Raise AttributeError
  end.

Fixpoint chars (s : string) : list value :=
  match s with
  | EmptyString => []
  | String c rest => VStr (String c EmptyString) :: chars rest
  end.

(** The elements a [for] loop over [obj] visits. *)
Definition py_iter (obj : value) : outcome (list value) :=
  match obj with
  | VList items => Return items
  | VDict entries => Return (map (fun kv => VStr (fst kv)) entries)
  | VStr s => Return (chars s)
  | VNone | VBool _ | VNum _ => Raise TypeError
  end.

(** [obj == 'DONE'] and the like. *)
Definition py_eq_str (obj : value) (s : string) : bool := is_str s obj.

(** ** The job object *)

(** [JobError = namedtuple('JobError', ['location', 'message', 'reason'])];
    a field that is Python's [None] is [VNone]. *)
Record JobError : Type := mkJobError
  { location : value; message : value; reason : value }.

Record Job : Type := mkJob
  { _job_id : string;
    _is_complete : bool;
    _errors : option (list JobError);
    _fatal_error : option JobError }.

(** [Job.__init__]; the [api] object is the section variable [jobs_get]
    below. *)
Definition __init__ (job_id : string) : Job :=
  {| _job_id := job_id; _is_complete := false;
     _errors := None; _fatal_error := None |}.

Definition with_is_complete (b : bool) (self : Job) : Job :=
  {| _job_id := _job_id self; _is_complete := b;
     _errors := _errors self; _fatal_error := _fatal_error self |}.

Definition with_fatal_error (e : option JobError) (self : Job) : Job :=
  {| _job_id := _job_id self; _is_complete := _is_complete self;
     _errors := _errors self; _fatal_error := e |}.

Definition with_errors (l : option (list JobError)) (self : Job) : Job :=
  {| _job_id := _job_id self; _is_complete := _is_complete self;
     _errors := l; _fatal_error := _fatal_error self |}.

(** [self._errors.append(e)]; the list is there whenever the code appends. *)
Definition errors_append (e : JobError) (self : Job) : Job :=
  match _errors self with
  | Some l => with_errors (Some (l ++ [e])) self
  | None => self
  end.

(** ** The outside world and the method monad *)

Inductive event : Type :=
| EvJobsGet (job_id : string)
| EvSleep (seconds : Z).

Definition trace : Type := list event.

Definition count_jobs_get (t : trace) : nat :=
  length (filter (fun ev => match ev with EvJobsGet _ => true | _ => false end) t).

Definition M (A : Type) : Type := Job -> trace -> outcome A * Job * trace.

Definition ret {A} (a : A) : M A := fun self t => (Return a, self, t).

Definition bind {A B} (m : M A) (k : A -> M B) : M B :=
  fun self t =>
    match m self t with
    | (Return a, self', t') => k a self' t'
    | (Raise e, self', t') => (Raise e, self', t')
    end.

Definition lift {A} (o : outcome A) : M A := fun self t => (o, self, t).

Definition get_self : M Job := fun self t => (Return self, self, t).

Definition update (f : Job -> Job) : M unit := fun self t => (Return tt, f self, t).

Notation "x <- m ;; k" := (bind m (fun x => k))
  (at level 61, m at next level, right associativity).
Notation "m ;;; k" := (bind m (fun _ => k))
  (at level 61, right associativity).

Fixpoint for_each {A} (items : list A) (body : A -> M unit) : M unit :=
  match items with
  | [] => ret tt
  | x :: rest => body x ;;; for_each rest body
  end.

(** The value a Python expression [a and b] leaves, for the one use in
    [failed]: a [bool], [None] or a [JobError]. *)
Inductive pyresult : Type :=
| PyBool (b : bool)
| PyNone
| PyJobError (e : JobError).

(** Python's truth value: a [JobError] is a three-element tuple, so it is
    true. *)
Definition truthy (r : pyresult) : bool :=
  match r with
  | PyBool b => b
  | PyNone => false
  | PyJobError _ => true
  end.

Definition py_and (a : bool) (b : option JobError) : pyresult :=
  if a then match b with Some e => PyJobError e | None => PyNone end
  else PyBool false.

Section JobMethods.

(** [self._api.jobs_get]: what the service answers to a request for
    [job_id] after the history [t], or the exception it raises. *)
Variable jobs_get : string -> trace -> outcome value.

Definition call_jobs_get (job_id : string) : M value :=
  fun self t => (jobs_get job_id t, self, t ++ [EvJobsGet job_id]).

(** [time.sleep]: the thread sleeps for [seconds]; a negative length is
    refused with an exception and nothing is slept. *)
Definition _sleep (seconds : Z) : M unit :=
  fun self t =>
    if (seconds <? 0)%Z then (Raise ValueError, self, t)
    else (Return tt, self, t ++ [EvSleep seconds]).

Definition _refresh_state : M unit :=
  self <- get_self ;;
  if _is_complete self then ret tt
  else
    response <- call_jobs_get (_job_id self) ;;
    has_status <- lift (py_contains response "status") ;;
    if has_status then
      status <- lift (py_getitem response "status") ;;
      has_state <- lift (py_contains status "state") ;;
      done <- (if has_state then
                 state <- lift (py_getitem status "state") ;;
                 ret (py_eq_str state "DONE")
               else ret false) ;;
      if done then
        update (with_is_complete true) ;;;
        has_error_result <- lift (py_contains status "errorResult") ;;
        (if has_error_result then
           error_result <- lift (py_getitem status "errorResult") ;;
           location <- lift (py_get error_result "location") ;;
           message <- lift (py_get error_result "message") ;;
           reason <- lift (py_get error_result "reason") ;;
           update (with_fatal_error (Some (mkJobError location message reason)))
         else ret tt) ;;;
        has_errors <- lift (py_contains status "errors") ;;
        if has_errors then
          update (with_errors (Some [])) ;;;
          errors <- lift (py_getitem status "errors") ;;
          items <- lift (py_iter errors) ;;
          for_each items (fun error =>
            location <- lift (py_get error "location") ;;
            message <- lift (py_get error "message") ;;
            reason <- lift (py_get error "reason") ;;
            update (errors_append (mkJobError location message reason)))
        else ret tt
      else ret tt
    else ret tt.

Definition iscomplete : M bool :=
  _refresh_state ;;;
  self <- get_self ;;
  ret (_is_complete self).

Definition failed : M pyresult :=
  _refresh_state ;;;
  self <- get_self ;;
  ret (py_and (_is_complete self) (_fatal_error self)).

Definition fatal_error : M (option JobError) :=
  _refresh_state ;;;
  self <- get_self ;;
  ret (_fatal_error self).

Definition errors : M (option (list JobError)) :=
  _refresh_state ;;;
  self <- get_self ;;
  ret (_errors self).

(** One turn of the [while] loop of [wait]: either the loop is left with a
    result or it goes round again with the new [timeout]. *)
Inductive turn : Type :=
| Leave (result : bool)
| Again (timeout : option Z).

Definition wait_turn (timeout : option Z) (poll : Z) : M turn :=
  complete <- iscomplete ;;
  if complete then ret (Leave true)
  else
    match timeout with
    | Some budget =>
        if (budget <=? 0)%Z then ret (Leave false)
        else _sleep poll ;;; ret (Again (Some (budget - poll)%Z))
    | None => _sleep poll ;;; ret (Again None)
    end.

(** [wait]; [None] when the loop is still running after [fuel] turns. *)
Fixpoint wait (fuel : nat) (timeout : option Z) (poll : Z)
    (self : Job) (t : trace) : option (outcome bool * Job * trace) :=
  match fuel with
  | O => None
  | S fuel' =>
      match wait_turn timeout poll self t with
      | (Return (Leave result), self', t') => Some (Return result, self', t')
      | (Return (Again timeout'), self', t') => wait fuel' timeout' poll self' t'
      | (Raise e, self', t') => Some (Raise e, self', t')
      end
  end.

End JobMethods.

(** ** Shapes of a response *)

(** The three ways a response can fail the test of line 102 to 104 without
    an exception: no ['status'], no ['state'] in the status, or a state
    that is not ['DONE']. *)
Definition lacks_status (response : value) : Prop :=
  py_contains response "status" = Return false.

Definition lacks_state (response : value) : Prop :=
  exists status,
    py_contains response "status" = Return true /\
    py_getitem response "status" = Return status /\
    py_contains status "state" = Return false.

Definition state_not_done (response : value) : Prop :=
  exists status state,
    py_contains response "status" = Return true /\
    py_getitem response "status" = Return status /\
    py_contains status "state" = Return true /\
    py_getitem status "state" = Return state /\
    py_eq_str state "DONE" = false.

Definition non_terminal (response : value) : Prop :=
  lacks_status response \/ lacks_state response \/ state_not_done response.

(** The default of [dict.get(key, None)] on the entries of a dict. *)
Definition field (entries : list (string * value)) (key : string) : value :=
  match assoc key entries with
  | Some v => v
  | None => VNone
  end.

(** The [JobError] built from one error payload (lines 108 to 111 and 115
    to 118). *)
Definition job_error_of (entries : list (string * value)) : JobError :=
  mkJobError (field entries "location") (field entries "message")
             (field entries "reason").

(** The events of [k] unsuccessful turns of [wait]. *)
Fixpoint polls (job_id : string) (poll : Z) (k : nat) : trace :=
  match k with
  | O => []
  | S k' => EvJobsGet job_id :: EvSleep poll :: polls job_id poll k'
  end.

(** [n] refreshes in a row, whatever each one's outcome. *)
Fixpoint refresh_n (jobs_get : string -> trace -> outcome value)
    (n : nat) (self : Job) (t : trace) : Job * trace :=
  match n with
  | O => (self, t)
  | S n' =>
      match _refresh_state jobs_get self t with
      | (_, self', t') => refresh_n jobs_get n' self' t'
      end
  end.

(** ** Sequences of calls by a client *)

Inductive op : Type :=
| OpIsComplete
| OpFailed
| OpFatalError
| OpErrors
| OpWait (timeout : option Z) (poll : Z).

Inductive answer : Type :=
| ABool (b : bool)
| APy (r : pyresult)
| AFatal (e : option JobError)
| AErrors (l : option (list JobError)).

Definition map_outcome {A B} (f : A -> B) (o : outcome A) : outcome B :=
  match o with
  | Return a => Return (f a)
  | Raise e => Raise e
  end.

Definition answered {A} (f : A -> answer) (r : outcome A * Job * trace)
    : outcome answer * Job * trace :=
  match r with
  | (o, self, t) => (map_outcome f o, self, t)
  end.

Definition run_op (jobs_get : string -> trace -> outcome value) (fuel : nat)
    (o : op) (self : Job) (t : trace) : option (outcome answer * Job * trace) :=
  match o with
  | OpIsComplete => Some (answered ABool (iscomplete jobs_get self t))
  | OpFailed => Some (answered APy (failed jobs_get self t))
  | OpFatalError => Some (answered AFatal (fatal_error jobs_get self t))
  | OpErrors => Some (answered AErrors (errors jobs_get self t))
  | OpWait timeout poll =>
      option_map (answered ABool) (wait jobs_get fuel timeout poll self t)
  end.

(** The client goes on after an exception (it may catch it). *)
Fixpoint run_ops (jobs_get : string -> trace -> outcome value) (fuel : nat)
    (ops : list op) (self : Job) (t : trace)
    : option (list (outcome answer) * Job * trace) :=
  match ops with
  | [] => Some ([], self, t)
  | o :: rest =>
      match run_op jobs_get fuel o self t with
      | None => None
      | Some (a, self', t') =>
          match run_ops jobs_get fuel rest self' t' with
          | None => None
          | Some (answers, self'', t'') => Some (a :: answers, self'', t'')
          end
      end
  end.

(** What each call answers from the cached fields alone. *)
Definition cached (self : Job) (o : op) : answer :=
  match o with
  | OpIsComplete => ABool (_is_complete self)
  | OpFailed => APy (py_and (_is_complete self) (_fatal_error self))
  | OpFatalError => AFatal (_fatal_error self)
  | OpErrors => AErrors (_errors self)
  | OpWait _ _ => ABool true
  end.

(** The sentence of C4 as it is written: a refresh that sees ['DONE']
    with ['errors'] absent or an empty list leaves [_errors] at [None]. *)
Definition empty_or_absent_errors_stay_unset : Prop :=
  forall (api : string -> trace -> outcome value) (job_id : string) (t : trace)
         (r st : list (string * value)),
    api job_id t = Return (VDict r) ->
    assoc "status" r = Some (VDict st) ->
    assoc "state" st = Some (VStr "DONE") ->
    assoc "errorResult" st = None ->
    assoc "errors" st = None \/ assoc "errors" st = Some (VList []) ->
    _errors (snd (fst (_refresh_state api (__init__ job_id) t))) = None.

(** ** Sample services and jobs *)

Definition running_response : value :=
  VDict [("status", VDict [("state", VStr "RUNNING")])].

Definition done_response : value :=
  VDict [("status", VDict [("state", VStr "DONE")])].

Definition boom_response : value :=
  VDict [("status",
          VDict [("state", VStr "DONE");
                 ("errorResult", VDict [("message", VStr "boom")])])].

Definition two_errors_response : value :=
  VDict [("status",
          VDict [("state", VStr "DONE");
                 ("errors", VList [VDict [("reason", VStr "a")];
                                   VDict [("reason", VStr "b")]])])].

Definition empty_errors_response : value :=
  VDict [("status", VDict [("state", VStr "DONE"); ("errors", VList [])])].

(** A service that answers [first] to the first [k] requests and then
    does [later]. *)
Definition service_after (k : nat) (first : value) (later : outcome value)
    : string -> trace -> outcome value :=
  fun _ t => if Nat.ltb (count_jobs_get t) k then Return first else later.

Definition service_always (response : value) : string -> trace -> outcome value :=
  fun _ _ => Return response.

Definition service_down : string -> trace -> outcome value :=
  fun _ _ => Raise (ApiError "503").

Definition done_job : Job :=
  {| _job_id := "job"; _is_complete := true;
     _errors := None; _fatal_error := None |}.

(** ** The remaining methods and measures on traces *)

(** The [id] property (lines 41 to 48). *)
Definition id (self : Job) : string := _job_id self.

(** [__repr__] (lines 138 to 141): ['Job %s' % str(self._job_id)]. *)
Definition __repr__ (self : Job) : string := String.append "Job " (_job_id self).


Definition is_dict (v : value) : bool :=
  match v with
  | VDict _ => true
  | _ => false
  end.

(** Responses of the wrong shape. *)
Definition text_error_response : value :=
  VDict [("status", VDict [("state", VStr "DONE"); ("errorResult", VStr "boom")])].

Definition mixed_errors_response : value :=
  VDict [("status",
          VDict [("state", VStr "DONE");
                 ("errors", VList [VDict [("reason", VStr "a")];
                                   VStr "oops";
                                   VDict [("reason", VStr "b")]])])].

Definition null_errors_response : value :=
  VDict [("status", VDict [("state", VStr "DONE"); ("errors", VNone)])].

(** ** Basic facts *)

Lemma job_eta (self : Job) :
  {| _job_id := _job_id self; _is_complete := _is_complete self;
     _errors := _errors self; _fatal_error := _fatal_error self |} = self.
Proof. destruct self; reflexivity. Qed.

Lemma count_jobs_get_app (t u : trace) :
  count_jobs_get (t ++ u) = count_jobs_get t + count_jobs_get u.
Proof. unfold count_jobs_get. rewrite filter_app, length_app. reflexivity. Qed.

(** The innermost scrutinee of a nest of [match]es. *)
Ltac scrutinee x :=
  lazymatch x with
  | context [match ?y with _ => _ end] => scrutinee y
  | _ => x
  end.

Section Properties.

Variable jobs_get : string -> trace -> outcome value.

(** A complete job is not refreshed (line 97). *)
Lemma refresh_complete (self : Job) (t : trace) :
  _is_complete self = true ->
  _refresh_state jobs_get self t = (Return tt, self, t).
Proof.
  intros Hc. unfold _refresh_state, bind, get_self. rewrite Hc. reflexivity.
Qed.

(** The loop of lines 114 to 118 touches [_errors] only. *)
Lemma append_loop_frame (items : list value) :
  forall (self : Job) (t : trace),
    match for_each items (fun error =>
            location <- lift (py_get error "location") ;;
            message <- lift (py_get error "message") ;;
            reason <- lift (py_get error "reason") ;;
            update (errors_append (mkJobError location message reason)))
          self t with
    | (_, self', t') =>
        t' = t /\ _job_id self' = _job_id self /\
        _is_complete self' = _is_complete self /\
        _fatal_error self' = _fatal_error self
    end.
Proof.
  induction items as [|error rest IH]; intros self t; simpl.
  - auto.
  - unfold bind at 1. unfold bind at 1, lift at 1.
    destruct (py_get error "location") as [loc|e]; [|auto].
    unfold bind at 1, lift at 1.
    destruct (py_get error "message") as [msg|e]; [|auto].
    unfold bind at 1, lift at 1.
    destruct (py_get error "reason") as [rsn|e]; [|auto].
    unfold update at 1.
    specialize (IH (errors_append (mkJobError loc msg rsn) self) t).
    destruct (for_each rest _ _ t) as [[o self'] t'].
    destruct IH as (-> & Hid & Hc & Hf).
    rewrite Hid, Hc, Hf. unfold errors_append.
    destruct (_errors self); auto.
Qed.

(** A refresh of an incomplete job asks the service once, whatever comes
    back, and a job that is still incomplete afterwards is untouched. *)
Lemma refresh_incomplete (self : Job) (t : trace) :
  _is_complete self = false ->
  match _refresh_state jobs_get self t with
  | (_, self', t') =>
      t' = t ++ [EvJobsGet (_job_id self)] /\
      _job_id self' = _job_id self /\
      (_is_complete self' = false -> self' = self)
  end.
Proof.
  intros Hc. pose proof append_loop_frame as Hloop.
  unfold _refresh_state.
  unfold bind, get_self, call_jobs_get, lift, ret, update in *.
  rewrite Hc.
  repeat (match goal with
          | |- context [match ?x with _ => _ end] =>
              let y := scrutinee x in
              lazymatch y with
              | for_each ?items _ ?s ?u =>
                  let H := fresh "Hframe" in
                  pose proof (Hloop items s u) as H;
                  destruct y as [[? ?] ?];
                  destruct H as (-> & Hid & Hcomp & Hfat);
                  simpl in Hid, Hcomp, Hfat
              | _ => destruct y eqn:?
              end
          end; simpl);
    repeat split; try reflexivity; try congruence.
Qed.

(** An exception of [jobs_get] leaves through [_refresh_state] before any
    field is assigned (line 100). *)
Lemma refresh_raises (self : Job) (t : trace) (e : exn) :
  _is_complete self = false ->
  jobs_get (_job_id self) t = Raise e ->
  _refresh_state jobs_get self t = (Raise e, self, t ++ [EvJobsGet (_job_id self)]).
Proof.
  intros Hc He. unfold _refresh_state, bind, get_self, call_jobs_get.
  rewrite Hc, He. reflexivity.
Qed.

(** A response that fails the test of lines 102 to 104 changes nothing. *)
Lemma refresh_non_terminal (self : Job) (t : trace) (response : value) :
  _is_complete self = false ->
  jobs_get (_job_id self) t = Return response ->
  non_terminal response ->
  _refresh_state jobs_get self t = (Return tt, self, t ++ [EvJobsGet (_job_id self)]).
Proof.
  intros Hc Hr Hnt.
  unfold _refresh_state, bind, get_self, call_jobs_get, lift, ret.
  rewrite Hc, Hr.
  destruct Hnt as [H | [(status & H1 & H2 & H3) | (status & state & H1 & H2 & H3 & H4 & H5)]].
  - unfold lacks_status in H. rewrite H. reflexivity.
  - rewrite H1, H2, H3. reflexivity.
  - rewrite H1, H2, H3, H4, H5. reflexivity.
Qed.

Lemma py_get_dict (entries : list (string * value)) (key : string) :
  py_get (VDict entries) key = Return (field entries key).
Proof. unfold py_get, field. destruct (assoc key entries); reflexivity. Qed.

(** The loop of lines 114 to 118 over a list of dicts appends one
    [JobError] per element, in order. *)
Lemma append_loop_dicts (ds : list (list (string * value))) :
  forall (self : Job) (t : trace) (l : list JobError),
    _errors self = Some l ->
    for_each (map VDict ds) (fun error =>
        location <- lift (py_get error "location") ;;
        message <- lift (py_get error "message") ;;
        reason <- lift (py_get error "reason") ;;
        update (errors_append (mkJobError location message reason)))
      self t
    = (Return tt, with_errors (Some (l ++ map job_error_of ds)) self, t).
Proof.
  induction ds as [|d ds IH]; intros self t l Hl; cbn [map for_each].
  - unfold ret. rewrite app_nil_r. unfold with_errors. rewrite <- Hl.
    rewrite job_eta. reflexivity.
  - unfold bind at 1. unfold bind at 1, lift at 1. rewrite py_get_dict.
    unfold bind at 1, lift at 1. rewrite py_get_dict.
    unfold bind at 1, lift at 1. rewrite py_get_dict.
    unfold update at 1.
    rewrite (IH _ t (l ++ [job_error_of d])).
    + unfold errors_append. rewrite Hl. rewrite <- app_assoc. reflexivity.
    + unfold errors_append. rewrite Hl. reflexivity.
Qed.

(** The refresh that sees a well-formed ['DONE'] status: [er] is the
    ['errorResult'] dict when there is one, [es] the list of dicts under
    ['errors'] when there is one. *)
Lemma refresh_done (self : Job) (t : trace)
    (r st : list (string * value))
    (er : option (list (string * value)))
    (es : option (list (list (string * value)))) :
  _is_complete self = false ->
  jobs_get (_job_id self) t = Return (VDict r) ->
  assoc "status" r = Some (VDict st) ->
  assoc "state" st = Some (VStr "DONE") ->
  assoc "errorResult" st = option_map VDict er ->
  assoc "errors" st = option_map (fun ds => VList (map VDict ds)) es ->
  _refresh_state jobs_get self t
  = (Return tt,
     {| _job_id := _job_id self;
        _is_complete := true;
        _errors := match es with
                   | Some ds => Some (map job_error_of ds)
                   | None => _errors self
                   end;
        _fatal_error := match er with
                        | Some d => Some (job_error_of d)
                        | None => _fatal_error self
                        end |},
     t ++ [EvJobsGet (_job_id self)]).
Proof.
  intros Hc Hr Hstatus Hstate Her Hes.
  pose proof append_loop_dicts as Hloop.
  unfold _refresh_state.
  unfold bind, get_self, call_jobs_get, lift, ret, update in *.
  rewrite Hc, Hr. simpl. rewrite Hstatus. simpl. rewrite Hstate. simpl.
  rewrite Her, Hes.
  destruct er as [d|], es as [ds|]; cbn [option_map];
    repeat rewrite py_get_dict; cbn [py_iter]; cbv beta iota;
    try (rewrite (Hloop ds _ _ []) by reflexivity); reflexivity.
Qed.

(** Each accessor is a refresh followed by a read of one field. *)
Lemma iscomplete_unfold (self : Job) (t : trace) :
  iscomplete jobs_get self t
  = match _refresh_state jobs_get self t with
    | (Return _, self', t') => (Return (_is_complete self'), self', t')
    | (Raise e, self', t') => (Raise e, self', t')
    end.
Proof. reflexivity. Qed.

Lemma failed_unfold (self : Job) (t : trace) :
  failed jobs_get self t
  = match _refresh_state jobs_get self t with
    | (Return _, self', t') =>
        (Return (py_and (_is_complete self') (_fatal_error self')), self', t')
    | (Raise e, self', t') => (Raise e, self', t')
    end.
Proof. reflexivity. Qed.

Lemma fatal_error_unfold (self : Job) (t : trace) :
  fatal_error jobs_get self t
  = match _refresh_state jobs_get self t with
    | (Return _, self', t') => (Return (_fatal_error self'), self', t')
    | (Raise e, self', t') => (Raise e, self', t')
    end.
Proof. reflexivity. Qed.

Lemma errors_unfold (self : Job) (t : trace) :
  errors jobs_get self t
  = match _refresh_state jobs_get self t with
    | (Return _, self', t') => (Return (_errors self'), self', t')
    | (Raise e, self', t') => (Raise e, self', t')
    end.
Proof. reflexivity. Qed.

(** *** Turns of [wait] *)

Lemma wait_turn_complete (timeout : option Z) (poll : Z) (self : Job) (t : trace) :
  _is_complete self = true ->
  wait_turn jobs_get timeout poll self t = (Return (Leave true), self, t).
Proof.
  intros Hc. unfold wait_turn, bind at 1. rewrite iscomplete_unfold.
  rewrite (refresh_complete _ _ Hc), Hc. reflexivity.
Qed.

Lemma wait_complete (fuel : nat) (timeout : option Z) (poll : Z)
    (self : Job) (t : trace) :
  _is_complete self = true ->
  wait jobs_get (S fuel) timeout poll self t = Some (Return true, self, t).
Proof.
  intros Hc. cbn [wait]. rewrite (wait_turn_complete _ _ _ _ Hc). reflexivity.
Qed.

Lemma wait_turn_raises (timeout : option Z) (poll : Z) (self : Job) (t : trace)
    (e : exn) :
  _is_complete self = false ->
  jobs_get (_job_id self) t = Raise e ->
  wait_turn jobs_get timeout poll self t
  = (Raise e, self, t ++ [EvJobsGet (_job_id self)]).
Proof.
  intros Hc He. unfold wait_turn, bind at 1. rewrite iscomplete_unfold.
  rewrite (refresh_raises _ _ _ Hc He). reflexivity.
Qed.

(** A turn that finds the job still running: the budget is tested first,
    then decremented, then the thread sleeps (lines 131 to 135). *)
Lemma wait_turn_running (timeout : option Z) (poll : Z) (self : Job) (t : trace)
    (response : value) :
  _is_complete self = false ->
  jobs_get (_job_id self) t = Return response ->
  non_terminal response ->
  wait_turn jobs_get timeout poll self t
  = match timeout with
    | Some budget =>
        if (budget <=? 0)%Z
        then (Return (Leave false), self, t ++ [EvJobsGet (_job_id self)])
        else if (poll <? 0)%Z
        then (Raise ValueError, self, t ++ [EvJobsGet (_job_id self)])
        else (Return (Again (Some (budget - poll)%Z)), self,
              t ++ [EvJobsGet (_job_id self); EvSleep poll])
    | None =>
        if (poll <? 0)%Z
        then (Raise ValueError, self, t ++ [EvJobsGet (_job_id self)])
        else (Return (Again None), self,
              t ++ [EvJobsGet (_job_id self); EvSleep poll])
    end.
Proof.
  intros Hc Hr Hnt. unfold wait_turn, bind at 1. rewrite iscomplete_unfold.
  rewrite (refresh_non_terminal _ _ _ Hc Hr Hnt), Hc.
  destruct timeout as [budget|].
  - destruct (budget <=? 0)%Z; [reflexivity|].
    unfold bind, _sleep, ret. destruct (poll <? 0)%Z; [reflexivity|].
    rewrite <- app_assoc. reflexivity.
  - unfold bind, _sleep, ret. destruct (poll <? 0)%Z; [reflexivity|].
    rewrite <- app_assoc. reflexivity.
Qed.

(** [k] turns in a row that find the job running and the budget positive. *)
Lemma wait_polls (poll : Z) (fuel : nat) (self : Job) (k : nat) :
  forall (t : trace) (timeout : option Z),
    _is_complete self = false ->
    (0 <= poll)%Z ->
    (forall i, i < k ->
       exists response,
         jobs_get (_job_id self) (t ++ polls (_job_id self) poll i) = Return response /\
         non_terminal response) ->
    (forall budget, timeout = Some budget ->
       k = 0 \/ ((Z.of_nat k - 1) * poll < budget)%Z) ->
    wait jobs_get (k + fuel) timeout poll self t
    = wait jobs_get fuel
        (option_map (fun budget => (budget - Z.of_nat k * poll)%Z) timeout)
        poll self (t ++ polls (_job_id self) poll k).
Proof.
  induction k as [|k IH]; intros t timeout Hc Hpoll Hrun Hbudget.
  - cbn [polls Nat.add]. rewrite app_nil_r.
    destruct timeout as [budget|]; cbn [option_map]; [|reflexivity].
    replace (budget - Z.of_nat 0 * poll)%Z with budget by lia. reflexivity.
  - destruct (Hrun 0) as (response & Hr & Hnt); [lia|].
    cbn [polls] in Hr. rewrite app_nil_r in Hr.
    cbn [Nat.add wait].
    rewrite (wait_turn_running _ _ _ _ _ Hc Hr Hnt).
    assert (Hp : (poll <? 0)%Z = false) by (apply Z.ltb_ge; exact Hpoll).
    assert (Hshift : forall i,
               (t ++ [EvJobsGet (_job_id self); EvSleep poll])
                 ++ polls (_job_id self) poll i
               = t ++ polls (_job_id self) poll (S i)).
    { intros i. rewrite <- app_assoc. reflexivity. }
    destruct timeout as [budget|].
    + destruct (Hbudget budget eq_refl) as [Hk | Hb]; [discriminate|].
      assert (Hk : (0 <= (Z.of_nat (S k) - 1) * poll)%Z)
        by (apply Z.mul_nonneg_nonneg; lia).
      assert (Hpos : (budget <=? 0)%Z = false) by (apply Z.leb_gt; lia).
      rewrite Hpos, Hp. rewrite IH; try assumption.
      * rewrite Hshift. cbn [option_map].
        replace (budget - poll - Z.of_nat k * poll)%Z
          with (budget - Z.of_nat (S k) * poll)%Z by lia.
        reflexivity.
      * intros i Hi. rewrite Hshift. apply Hrun. lia.
      * intros b Hb'. injection Hb' as <-. destruct k as [|k']; [left; reflexivity|].
        right. lia.
    + rewrite Hp. rewrite IH; try assumption.
      * rewrite Hshift. reflexivity.
      * intros i Hi. rewrite Hshift. apply Hrun. lia.
      * intros b Hb'. discriminate.
Qed.

(** *** Runs of refreshes *)

Lemma refresh_n_complete (n : nat) :
  forall (self : Job) (t : trace),
    _is_complete self = true -> refresh_n jobs_get n self t = (self, t).
Proof.
  induction n as [|n IH]; intros self t Hc; cbn [refresh_n]; [reflexivity|].
  rewrite (refresh_complete _ _ Hc). apply IH. exact Hc.
Qed.

Lemma refresh_n_split (n k : nat) :
  forall (self : Job) (t : trace),
    refresh_n jobs_get (n + k) self t
    = refresh_n jobs_get k (fst (refresh_n jobs_get n self t))
                          (snd (refresh_n jobs_get n self t)).
Proof.
  induction n as [|n IH]; intros self t; cbn [Nat.add refresh_n]; [reflexivity|].
  destruct (_refresh_state jobs_get self t) as [[o self'] t']. apply IH.
Qed.

(** A job that is incomplete after [n] refreshes was never assigned to. *)
Lemma refresh_n_still_incomplete (n : nat) :
  forall (self : Job) (t : trace),
    _is_complete (fst (refresh_n jobs_get n self t)) = false ->
    forall m, m <= n -> fst (refresh_n jobs_get m self t) = self.
Proof.
  induction n as [|n IH]; intros self t Hfin m Hm.
  - replace m with 0 by lia. reflexivity.
  - cbn [refresh_n] in Hfin.
    destruct (_refresh_state jobs_get self t) as [[o self'] t'] eqn:Hstep.
    pose proof (IH self' t' Hfin) as Hrest.
    assert (Hself : self' = self).
    { pose proof (Hrest n (le_n n)) as Hn. rewrite Hn in Hfin.
      destruct (_is_complete self) eqn:Hc.
      - rewrite (refresh_complete _ _ Hc) in Hstep. congruence.
      - pose proof (refresh_incomplete self t Hc) as Hframe.
        rewrite Hstep in Hframe. destruct Hframe as (_ & _ & Hsame).
        apply Hsame. exact Hfin. }
    destruct m as [|m]; [reflexivity|].
    cbn [refresh_n]. rewrite Hstep. rewrite Hrest by lia. exact Hself.
Qed.

(** Once complete, the job is the same after any further refreshes. *)
Lemma refresh_n_fixed (n m : nat) (self : Job) (t : trace) :
  n <= m ->
  _is_complete (fst (refresh_n jobs_get n self t)) = true ->
  refresh_n jobs_get m self t = refresh_n jobs_get n self t.
Proof.
  intros Hnm Hc. replace m with (n + (m - n)) by lia.
  rewrite refresh_n_split. rewrite (refresh_n_complete _ _ _ Hc).
  destruct (refresh_n jobs_get n self t); reflexivity.
Qed.

End Properties.

(** ** The properties of the specification *)

Section Claims.

Variable jobs_get : string -> trace -> outcome value.

(** C1 (cache trust).  On a job whose [_is_complete] is true,
    [_refresh_state] returns at once, and any sequence of [iscomplete],
    [failed], [fatal_error], [errors] and [wait] calls answers from the
    cached fields: the job and the trace are the same afterwards, so no
    [jobs_get] call (and no sleep) was made. *)
Theorem cache_trust (self : Job) (t : trace) (ops : list op) (fuel : nat) :
  _is_complete self = true ->
  _refresh_state jobs_get self t = (Return tt, self, t) /\
  run_ops jobs_get (S fuel) ops self t
  = Some (map (fun o => Return (cached self o)) ops, self, t).
Proof.
  intros Hc. split; [apply refresh_complete; exact Hc|].
  induction ops as [|o rest IH]; [reflexivity|].
  cbn [run_ops map].
  assert (Hop : run_op jobs_get (S fuel) o self t
                = Some (Return (cached self o), self, t)).
  { destruct o; unfold run_op.
    - rewrite iscomplete_unfold, (refresh_complete _ _ _ Hc). reflexivity.
    - rewrite failed_unfold, (refresh_complete _ _ _ Hc). reflexivity.
    - rewrite fatal_error_unfold, (refresh_complete _ _ _ Hc). reflexivity.
    - rewrite errors_unfold, (refresh_complete _ _ _ Hc). reflexivity.
    - rewrite (wait_complete _ _ _ _ _ _ Hc). reflexivity. }
  rewrite Hop, IH. reflexivity.
Qed.

(** C2 (state monotonicity).  Along any run of refreshes, with any
    answers of the service: a job that is complete after [n] refreshes is
    the same job after any [m >= n] refreshes; a job that is incomplete
    after [m] refreshes was still the initial job after every [n <= m];
    hence between two points of a run the job either did not change or
    went, once, from the untouched incomplete job to a complete one. *)
Theorem state_monotone (self : Job) (t : trace) (n m : nat) :
  n <= m ->
  let jn := fst (refresh_n jobs_get n self t) in
  let jm := fst (refresh_n jobs_get m self t) in
  (_is_complete jn = true -> jm = jn) /\
  (_is_complete jm = false -> jn = self) /\
  (jm = jn \/ (_is_complete jn = false /\ jn = self /\ _is_complete jm = true)).
Proof.
  intros Hnm jn jm.
  assert (Hfix : _is_complete jn = true -> jm = jn).
  { intros Hc. unfold jm, jn. rewrite (refresh_n_fixed _ n m self t Hnm Hc).
    reflexivity. }
  assert (Hinit : forall k, k <= m -> _is_complete
             (fst (refresh_n jobs_get k self t)) = false ->
             fst (refresh_n jobs_get k self t) = self).
  { intros k Hk Hc. apply (refresh_n_still_incomplete _ k self t Hc k).
    apply le_n. }
  split; [exact Hfix|]. split.
  - intros Hc. apply (refresh_n_still_incomplete _ m self t Hc n Hnm).
  - destruct (_is_complete jn) eqn:Hn.
    + left. apply Hfix. reflexivity.
    + destruct (_is_complete jm) eqn:Hm.
      * right. split; [reflexivity|]. split; [|reflexivity].
        apply Hinit; assumption.
      * left. unfold jm, jn.
        rewrite (refresh_n_still_incomplete _ m self t Hm n Hnm).
        apply (refresh_n_still_incomplete _ m self t Hm m). apply le_n.
Qed.

(** What [failed] answers, read as a truth value: true exactly when the
    job is complete and has a fatal error. *)
Lemma failed_truthy (self : Job) (t : trace) (r : pyresult) (self' : Job)
    (t' : trace) :
  failed jobs_get self t = (Return r, self', t') ->
  truthy r = _is_complete self'
             && match _fatal_error self' with Some _ => true | None => false end.
Proof.
  rewrite failed_unfold.
  destruct (_refresh_state jobs_get self t) as [[[u|e] s1] t1]; [|discriminate].
  intros H. injection H as <- <- <-.
  destruct (_is_complete s1), (_fatal_error s1); reflexivity.
Qed.

(** C7 (fatal error, field by field).  After a refresh that sees state
    ['DONE'] and [errorResult = {message: 'boom'}], [failed] is true (the
    value it hands back is the [JobError] itself) and [fatal_error] has
    message ['boom'] and [None] for location and reason.  In general, for
    any ['errorResult'] dict the refresh does not raise and each of the
    three fields is the entry of that name, or [None] when there is no
    such entry. *)
Theorem fatal_error_parsing (self : Job) (t : trace) :
  _is_complete self = false ->
  (jobs_get (_job_id self) t
   = Return (VDict [("status",
               VDict [("state", VStr "DONE");
                      ("errorResult", VDict [("message", VStr "boom")])])]) ->
   exists self' t',
     _refresh_state jobs_get self t = (Return tt, self', t') /\
     let boom := mkJobError VNone (VStr "boom") VNone in
     failed jobs_get self' t' = (Return (PyJobError boom), self', t') /\
     truthy (PyJobError boom) = true /\
     fatal_error jobs_get self' t' = (Return (Some boom), self', t') /\
     message boom = VStr "boom" /\ location boom = VNone /\ reason boom = VNone) /\
  (forall r st d es,
     jobs_get (_job_id self) t = Return (VDict r) ->
     assoc "status" r = Some (VDict st) ->
     assoc "state" st = Some (VStr "DONE") ->
     assoc "errorResult" st = Some (VDict d) ->
     assoc "errors" st = option_map (fun ds => VList (map VDict ds)) es ->
     exists self' t',
       _refresh_state jobs_get self t = (Return tt, self', t') /\
       _is_complete self' = true /\
       exists e, _fatal_error self' = Some e /\
         location e = match assoc "location" d with Some v => v | None => VNone end /\
         message e = match assoc "message" d with Some v => v | None => VNone end /\
         reason e = match assoc "reason" d with Some v => v | None => VNone end).
Proof.
  intros Hc. split.
  - intros Hr.
    pose proof (refresh_done jobs_get self t _ _
                  (Some [("message", VStr "boom")]) None Hc Hr
                  eq_refl eq_refl eq_refl eq_refl) as Hstep.
    eexists _, _. split; [exact Hstep|].
    cbv zeta. rewrite failed_unfold, fatal_error_unfold.
    rewrite !refresh_complete by reflexivity.
    repeat split; reflexivity.
  - intros r st d es Hr Hstatus Hstate Her Hes.
    pose proof (refresh_done jobs_get self t r st (Some d) es Hc Hr
                  Hstatus Hstate Her Hes) as Hstep.
    eexists _, _. split; [exact Hstep|]. split; [reflexivity|].
    exists (job_error_of d). repeat split; reflexivity.
Qed.

(** C8 (partial errors keep their order and are not a failure).  After
    a refresh that sees state ['DONE'], no ['errorResult'] and
    [errors = [{reason: 'a'}, {reason: 'b'}]], [failed] is false (the
    value it hands back is [None]), [fatal_error] is [None] and [errors]
    is the two parsed errors in the order of the input.  In general a
    list of dicts under ['errors'] is stored as the list of their
    [JobError]s, element by element in the same order, each field read
    with the same default. *)
Theorem partial_errors_parsing (job_id : string) (t : trace) :
  let self := __init__ job_id in
  (jobs_get job_id t
   = Return (VDict [("status",
               VDict [("state", VStr "DONE");
                      ("errors", VList [VDict [("reason", VStr "a")];
                                        VDict [("reason", VStr "b")]])])]) ->
   exists self' t',
     _refresh_state jobs_get self t = (Return tt, self', t') /\
     (exists r, failed jobs_get self' t' = (Return r, self', t') /\
                truthy r = false) /\
     fatal_error jobs_get self' t' = (Return None, self', t') /\
     errors jobs_get self' t'
     = (Return (Some [mkJobError VNone VNone (VStr "a");
                      mkJobError VNone VNone (VStr "b")]), self', t')) /\
  (forall r st er ds,
     jobs_get job_id t = Return (VDict r) ->
     assoc "status" r = Some (VDict st) ->
     assoc "state" st = Some (VStr "DONE") ->
     assoc "errorResult" st = option_map VDict er ->
     assoc "errors" st = Some (VList (map VDict ds)) ->
     exists self' t',
       _refresh_state jobs_get self t = (Return tt, self', t') /\
       exists l, _errors self' = Some l /\
         length l = length ds /\
         forall i d, nth_error ds i = Some d ->
           nth_error l i
           = Some (mkJobError
                     match assoc "location" d with Some v => v | None => VNone end
                     match assoc "message" d with Some v => v | None => VNone end
                     match assoc "reason" d with Some v => v | None => VNone end)).
Proof.
  intros self. split.
  - intros Hr.
    pose proof (refresh_done jobs_get self t _ _ None
                  (Some [[("reason", VStr "a")]; [("reason", VStr "b")]])
                  eq_refl Hr eq_refl eq_refl eq_refl eq_refl) as Hstep.
    eexists _, _. split; [exact Hstep|].
    rewrite failed_unfold, fatal_error_unfold, errors_unfold.
    rewrite !refresh_complete by reflexivity.
    split; [exists PyNone; split; reflexivity|]. split; reflexivity.
  - intros r st er ds Hr Hstatus Hstate Her Hes.
    pose proof (refresh_done jobs_get self t r st er (Some ds)
                  eq_refl Hr Hstatus Hstate Her Hes) as Hstep.
    eexists _, _. split; [exact Hstep|].
    exists (map job_error_of ds). split; [reflexivity|].
    split; [apply length_map|].
    intros i d Hi. rewrite nth_error_map, Hi. reflexivity.
Qed.

(** C4, as amended.  In the refresh that completes the job, an absent
    ['errors'] entry leaves [_errors] as it was ([None] on a job fresh
    from [__init__]), while an ['errors'] entry that is an empty list stores
    the empty list; [errors] then answers [None] in the first case and
    the empty list in the second. *)
Theorem errors_absent_or_empty (self : Job) (t : trace)
    (r st : list (string * value)) (er : option (list (string * value))) :
  _is_complete self = false ->
  jobs_get (_job_id self) t = Return (VDict r) ->
  assoc "status" r = Some (VDict st) ->
  assoc "state" st = Some (VStr "DONE") ->
  assoc "errorResult" st = option_map VDict er ->
  (assoc "errors" st = None ->
   exists self' t',
     _refresh_state jobs_get self t = (Return tt, self', t') /\
     _is_complete self' = true /\
     _errors self' = _errors self /\
     errors jobs_get self' t' = (Return (_errors self), self', t')) /\
  (assoc "errors" st = Some (VList []) ->
   exists self' t',
     _refresh_state jobs_get self t = (Return tt, self', t') /\
     _is_complete self' = true /\
     _errors self' = Some [] /\
     errors jobs_get self' t' = (Return (Some []), self', t')).
Proof.
  intros Hc Hr Hstatus Hstate Her. split; intros Hes.
  - pose proof (refresh_done jobs_get self t r st er None Hc Hr
                  Hstatus Hstate Her Hes) as Hstep.
    eexists _, _. split; [exact Hstep|].
    rewrite errors_unfold, refresh_complete by reflexivity.
    repeat split; reflexivity.
  - pose proof (refresh_done jobs_get self t r st er (Some []) Hc Hr
                  Hstatus Hstate Her Hes) as Hstep.
    eexists _, _. split; [exact Hstep|].
    rewrite errors_unfold, refresh_complete by reflexivity.
    repeat split; reflexivity.
Qed.

(** C9 (a response that is not terminal changes nothing).  When the
    response has no ['status'], or its status has no ['state'], or the
    state is not ['DONE'], the refresh assigns no field; [iscomplete]
    answers [False] and [failed] answers [False], and [fatal_error] and
    [errors] answer the fields as they were. *)
Theorem non_terminal_response_frame (self : Job) (t : trace) (response : value) :
  _is_complete self = false ->
  jobs_get (_job_id self) t = Return response ->
  non_terminal response ->
  let t' := t ++ [EvJobsGet (_job_id self)] in
  _refresh_state jobs_get self t = (Return tt, self, t') /\
  iscomplete jobs_get self t = (Return false, self, t') /\
  failed jobs_get self t = (Return (PyBool false), self, t') /\
  fatal_error jobs_get self t = (Return (_fatal_error self), self, t') /\
  errors jobs_get self t = (Return (_errors self), self, t').
Proof.
  intros Hc Hr Hnt t'.
  pose proof (refresh_non_terminal jobs_get self t response Hc Hr Hnt) as Hstep.
  rewrite iscomplete_unfold, failed_unfold, fatal_error_unfold, errors_unfold.
  rewrite Hstep, Hc. repeat split; reflexivity.
Qed.

(** C6 (an exception of the service goes through, the job untouched).
    On an incomplete job, when [jobs_get] raises [e], each accessor
    raises that same [e] after that one call and leaves the job as it
    was; so does [wait], whether the failing call is its first or comes
    after [k] turns that found the job running. *)
Theorem transport_error_propagates (self : Job) (t : trace) (e : exn) :
  _is_complete self = false ->
  jobs_get (_job_id self) t = Raise e ->
  let t' := t ++ [EvJobsGet (_job_id self)] in
  iscomplete jobs_get self t = (Raise e, self, t') /\
  failed jobs_get self t = (Raise e, self, t') /\
  fatal_error jobs_get self t = (Raise e, self, t') /\
  errors jobs_get self t = (Raise e, self, t') /\
  (forall fuel timeout poll,
     wait jobs_get (S fuel) timeout poll self t = Some (Raise e, self, t')) /\
  (forall fuel timeout poll k t0,
     t = t0 ++ polls (_job_id self) poll k ->
     (0 <= poll)%Z ->
     (forall i, i < k ->
        exists response,
          jobs_get (_job_id self) (t0 ++ polls (_job_id self) poll i)
          = Return response /\ non_terminal response) ->
     (forall budget, timeout = Some budget ->
        k = 0 \/ ((Z.of_nat k - 1) * poll < budget)%Z) ->
     wait jobs_get (k + S fuel) timeout poll self t0 = Some (Raise e, self, t')).
Proof.
  intros Hc He t'.
  pose proof (refresh_raises jobs_get self t e Hc He) as Hstep.
  rewrite iscomplete_unfold, failed_unfold, fatal_error_unfold, errors_unfold.
  rewrite Hstep. repeat split.
  - intros fuel timeout poll. cbn [wait].
    rewrite (wait_turn_raises jobs_get timeout poll self t e Hc He). reflexivity.
  - intros fuel timeout poll k t0 Ht Hpoll Hrun Hbudget.
    rewrite (wait_polls jobs_get poll (S fuel) self k t0 timeout Hc Hpoll Hrun Hbudget).
    rewrite <- Ht. cbn [wait].
    rewrite (wait_turn_raises jobs_get _ poll self t e Hc He). reflexivity.
Qed.

(** C5 (the arithmetic of the timeout).  Against a job that never
    completes, [wait(timeout=10, poll=5)] hands back [False] after
    exactly two sleeps of 5 (budget 10, 5, 0: the third turn finds the
    budget at 0 and leaves before sleeping).  In general a turn that
    finds the job running tests the budget before anything else, leaves
    with [False] and without a sleep when it is [<= 0], and otherwise
    takes [poll] off the budget and sleeps for [poll]; with a positive
    [poll] the call ends after [n] sleeps, [n] the least number with
    [budget <= n * poll]. *)
Theorem wait_timeout_arithmetic (self : Job) (t : trace) :
  _is_complete self = false ->
  (forall h, exists response,
     jobs_get (_job_id self) h = Return response /\ non_terminal response) ->
  let get := EvJobsGet (_job_id self) in
  (forall fuel,
     wait jobs_get (3 + fuel) (Some 10%Z) 5%Z self t
     = Some (Return false, self,
             t ++ [get; EvSleep 5; get; EvSleep 5; get])) /\
  (forall budget poll h,
     (budget <= 0)%Z ->
     wait_turn jobs_get (Some budget) poll self h
     = (Return (Leave false), self, h ++ [get])) /\
  (forall budget poll h,
     (0 < budget)%Z -> (0 <= poll)%Z ->
     wait_turn jobs_get (Some budget) poll self h
     = (Return (Again (Some (budget - poll)%Z)), self,
        h ++ [get; EvSleep poll])) /\
  (forall poll h,
     (0 <= poll)%Z ->
     wait_turn jobs_get None poll self h
     = (Return (Again None), self, h ++ [get; EvSleep poll])) /\
  (forall n budget poll fuel,
     (0 < poll)%Z ->
     (budget <= Z.of_nat n * poll)%Z ->
     n = 0 \/ ((Z.of_nat n - 1) * poll < budget)%Z ->
     wait jobs_get (n + S fuel) (Some budget) poll self t
     = Some (Return false, self, t ++ polls (_job_id self) poll n ++ [get])).
Proof.
  intros Hc Hrun get.
  assert (Hturn : forall timeout poll h,
             wait_turn jobs_get timeout poll self h
             = match timeout with
               | Some budget =>
                   if (budget <=? 0)%Z
                   then (Return (Leave false), self, h ++ [get])
                   else if (poll <? 0)%Z
                   then (Raise ValueError, self, h ++ [get])
                   else (Return (Again (Some (budget - poll)%Z)), self,
                         h ++ [get; EvSleep poll])
               | None =>
                   if (poll <? 0)%Z
                   then (Raise ValueError, self, h ++ [get])
                   else (Return (Again None), self, h ++ [get; EvSleep poll])
               end).
  { intros timeout poll h. destruct (Hrun h) as (response & Hr & Hnt).
    apply (wait_turn_running jobs_get timeout poll self h response Hc Hr Hnt). }
  assert (Hgen : forall n budget poll fuel,
             (0 < poll)%Z ->
             (budget <= Z.of_nat n * poll)%Z ->
             n = 0 \/ ((Z.of_nat n - 1) * poll < budget)%Z ->
             wait jobs_get (n + S fuel) (Some budget) poll self t
             = Some (Return false, self,
                     t ++ polls (_job_id self) poll n ++ [get])).
  { intros n budget poll fuel Hpoll Hle Hgt.
    rewrite (wait_polls jobs_get poll (S fuel) self n t (Some budget) Hc).
    - cbn [option_map wait]. rewrite Hturn.
      replace (budget - Z.of_nat n * poll <=? 0)%Z with true
        by (symmetry; apply Z.leb_le; lia).
      rewrite <- app_assoc. reflexivity.
    - lia.
    - intros i _. apply Hrun.
    - intros b Hb. injection Hb as <-. exact Hgt. }
  split.
  { intros fuel. apply (Hgen 2 10%Z 5%Z fuel); [lia | lia | right; lia]. }
  split.
  { intros budget poll h Hb. rewrite Hturn.
    replace (budget <=? 0)%Z with true by (symmetry; apply Z.leb_le; lia).
    reflexivity. }
  split.
  { intros budget poll h Hb Hp. rewrite Hturn.
    replace (budget <=? 0)%Z with false by (symmetry; apply Z.leb_gt; lia).
    replace (poll <? 0)%Z with false by (symmetry; apply Z.ltb_ge; lia).
    reflexivity. }
  split.
  { intros poll h Hp. rewrite Hturn.
    replace (poll <? 0)%Z with false by (symmetry; apply Z.ltb_ge; lia).
    reflexivity. }
  exact Hgen.
Qed.

(** C10 (one request per call).  A call of [iscomplete], [failed],
    [fatal_error] or [errors] extends the trace by exactly one
    [jobs_get] event when the job is incomplete at the call and by
    nothing when it is complete; one turn of the loop of [wait] makes
    exactly one [jobs_get] call while the job is incomplete and none
    when it is complete. *)
Theorem one_request_per_call (self : Job) (t : trace)
    (timeout : option Z) (poll : Z) :
  let calls := if _is_complete self then [] else [EvJobsGet (_job_id self)] in
  snd (iscomplete jobs_get self t) = t ++ calls /\
  snd (failed jobs_get self t) = t ++ calls /\
  snd (fatal_error jobs_get self t) = t ++ calls /\
  snd (errors jobs_get self t) = t ++ calls /\
  count_jobs_get (snd (wait_turn jobs_get timeout poll self t))
  = count_jobs_get t + length calls.
Proof.
  intros calls.
  assert (Hstep : snd (_refresh_state jobs_get self t) = t ++ calls).
  { unfold calls. destruct (_is_complete self) eqn:Hc.
    - rewrite (refresh_complete _ _ _ Hc). cbn [snd]. rewrite app_nil_r.
      reflexivity.
    - pose proof (refresh_incomplete jobs_get self t Hc) as Hframe.
      destruct (_refresh_state jobs_get self t) as [[o self'] t'].
      destruct Hframe as (-> & _). reflexivity. }
  assert (Hcount : count_jobs_get (t ++ calls) = count_jobs_get t + length calls).
  { rewrite count_jobs_get_app. unfold calls.
    destruct (_is_complete self); reflexivity. }
  unfold wait_turn, bind at 1.
  rewrite iscomplete_unfold, failed_unfold, fatal_error_unfold, errors_unfold.
  destruct (_refresh_state jobs_get self t) as [[[u|e] self'] t'];
    cbn [snd] in Hstep; subst t'; repeat split; try exact Hcount.
  destruct (_is_complete self'); [exact Hcount|].
  unfold bind, _sleep, ret.
  destruct timeout as [budget|];
    [destruct (budget <=? 0)%Z; [exact Hcount|]|];
    destruct (poll <? 0)%Z; cbn [snd]; try exact Hcount;
    rewrite count_jobs_get_app, Hcount; cbn; lia.
Qed.

End Claims.

(** C3 (what [failed] hands back).  The docstring promises [True] or
    [False]; on a job that completed without a fatal error the
    expression [self._is_complete and self._fatal_error] is [None], and
    on a job that completed with one it is the [JobError] itself:
    neither is a [bool]. *)
Theorem failed_is_not_a_boolean :
  fst (fst (failed (service_always done_response) (__init__ "job") []))
  = Return PyNone /\
  fst (fst (failed (service_always boom_response) (__init__ "job") []))
  = Return (PyJobError (mkJobError VNone (VStr "boom") VNone)) /\
  (forall b, PyNone <> PyBool b) /\
  (forall e b, PyJobError e <> PyBool b).
Proof.
  split; [reflexivity|]. split; [reflexivity|].
  split; intros; discriminate.
Qed.

(** C4 as written fails: an ['errors'] entry that is an empty list is
    stored as the empty list. *)
Lemma empty_errors_are_stored : ~ empty_or_absent_errors_stay_unset.
Proof.
  intros H.
  specialize (H (service_always empty_errors_response) "job" []
                [("status", VDict [("state", VStr "DONE"); ("errors", VList [])])]
                [("state", VStr "DONE"); ("errors", VList [])]
                eq_refl eq_refl eq_refl eq_refl (or_intror eq_refl)).
  vm_compute in H. discriminate H.
Qed.

(** ** The theorems at work on sample services *)

Lemma running_response_non_terminal : non_terminal running_response.
Proof.
  right. right. exists (VDict [("state", VStr "RUNNING")]), (VStr "RUNNING").
  repeat split; reflexivity.
Qed.

(** A complete job answers five calls without a request, even when the
    service is down. *)
Lemma cache_trust_witness :
  _is_complete done_job = true /\
  run_ops service_down 1
    [OpIsComplete; OpFailed; OpFatalError; OpErrors; OpWait None 5%Z] done_job []
  = Some ([Return (ABool true); Return (APy PyNone); Return (AFatal None);
           Return (AErrors None); Return (ABool true)], done_job, []).
Proof.
  split; [reflexivity|].
  exact (proj2 (cache_trust service_down done_job []
                  [OpIsComplete; OpFailed; OpFatalError; OpErrors; OpWait None 5%Z]
                  0 eq_refl)).
Defined.

(** A job that runs at the first refresh and fails at the second,
    looked at after one and after three refreshes. *)
Lemma state_monotone_witness :
  1 <= 3 /\
  let api := service_after 1 running_response (Return boom_response) in
  let jn := fst (refresh_n api 1 (__init__ "job") []) in
  let jm := fst (refresh_n api 3 (__init__ "job") []) in
  (_is_complete jn = true -> jm = jn) /\
  (_is_complete jm = false -> jn = __init__ "job") /\
  (jm = jn \/
   (_is_complete jn = false /\ jn = __init__ "job" /\ _is_complete jm = true)).
Proof.
  split; [lia|].
  apply (state_monotone (service_after 1 running_response (Return boom_response))
           (__init__ "job") [] 1 3).
  lia.
Defined.

Lemma errors_absent_or_empty_witness :
  exists self' t',
    _refresh_state (service_always empty_errors_response) (__init__ "job") []
    = (Return tt, self', t') /\
    _is_complete self' = true /\
    _errors self' = Some [] /\
    errors (service_always empty_errors_response) self' t'
    = (Return (Some []), self', t').
Proof.
  apply (errors_absent_or_empty (service_always empty_errors_response)
           (__init__ "job") []
           [("status", VDict [("state", VStr "DONE"); ("errors", VList [])])]
           [("state", VStr "DONE"); ("errors", VList [])] None);
    reflexivity.
Defined.

Lemma wait_timeout_arithmetic_witness :
  wait (service_always running_response) 3 (Some 10%Z) 5%Z (__init__ "job") []
  = Some (Return false, __init__ "job",
          [EvJobsGet "job"; EvSleep 5; EvJobsGet "job"; EvSleep 5;
           EvJobsGet "job"]).
Proof.
  refine (proj1 (wait_timeout_arithmetic (service_always running_response)
                   (__init__ "job") [] eq_refl _) 0).
  intros h. exists running_response.
  split; [reflexivity | exact running_response_non_terminal].
Defined.

(** The service answers once that the job runs and is down afterwards. *)
Lemma transport_error_propagates_witness :
  let api := service_after 1 running_response (Raise (ApiError "503")) in
  let t := [EvJobsGet "job"; EvSleep 5] in
  _is_complete (__init__ "job") = false /\
  api "job" t = Raise (ApiError "503") /\
  iscomplete api (__init__ "job") t
  = (Raise (ApiError "503"), __init__ "job", t ++ [EvJobsGet "job"]) /\
  wait api 2 None 5%Z (__init__ "job") []
  = Some (Raise (ApiError "503"), __init__ "job", t ++ [EvJobsGet "job"]).
Proof.
  intros api t. split; [reflexivity|]. split; [reflexivity|].
  pose proof (transport_error_propagates api (__init__ "job") t (ApiError "503")
                eq_refl eq_refl) as H.
  cbv zeta in H. destruct H as (H1 & _ & _ & _ & _ & H6).
  split; [exact H1|].
  apply (H6 0 None 5%Z 1 []).
  - reflexivity.
  - lia.
  - intros i Hi. exists running_response.
    replace i with 0 by lia.
    split; [reflexivity | exact running_response_non_terminal].
  - intros budget Hb. discriminate Hb.
Defined.

Lemma fatal_error_parsing_witness :
  exists self' t',
    _refresh_state (service_always boom_response) (__init__ "job") []
    = (Return tt, self', t') /\
    fatal_error (service_always boom_response) self' t'
    = (Return (Some (mkJobError VNone (VStr "boom") VNone)), self', t').
Proof.
  destruct (proj1 (fatal_error_parsing (service_always boom_response)
                     (__init__ "job") [] eq_refl) eq_refl)
    as (self' & t' & H1 & _ & _ & H4 & _).
  exists self', t'. split; [exact H1 | exact H4].
Defined.

Lemma partial_errors_parsing_witness :
  exists self' t',
    _refresh_state (service_always two_errors_response) (__init__ "job") []
    = (Return tt, self', t') /\
    errors (service_always two_errors_response) self' t'
    = (Return (Some [mkJobError VNone VNone (VStr "a");
                     mkJobError VNone VNone (VStr "b")]), self', t').
Proof.
  destruct (proj1 (partial_errors_parsing (service_always two_errors_response)
                     "job" []) eq_refl)
    as (self' & t' & H1 & _ & _ & H4).
  exists self', t'. split; [exact H1 | exact H4].
Defined.

Lemma non_terminal_response_frame_witness :
  _is_complete (__init__ "job") = false /\
  iscomplete (service_always running_response) (__init__ "job") []
  = (Return false, __init__ "job", [EvJobsGet "job"]) /\
  failed (service_always running_response) (__init__ "job") []
  = (Return (PyBool false), __init__ "job", [EvJobsGet "job"]).
Proof.
  split; [reflexivity|].
  pose proof (non_terminal_response_frame (service_always running_response)
                (__init__ "job") [] running_response eq_refl eq_refl
                running_response_non_terminal) as H.
  cbv zeta in H. destruct H as (_ & H2 & H3 & _).
  split; [exact H2 | exact H3].
Defined.

(** ** Further properties of the methods *)

Section Further.

Variable jobs_get : string -> trace -> outcome value.

(** What one turn of [wait] can do on an incomplete job. *)
Lemma wait_turn_incomplete (timeout : option Z) (poll : Z) (self : Job) (t : trace) :
  _is_complete self = false ->
  let get := EvJobsGet (_job_id self) in
  match wait_turn jobs_get timeout poll self t with
  | (Raise _, self', t') =>
      t' = t ++ [get] /\ _job_id self' = _job_id self /\
      (_is_complete self' = false -> self' = self)
  | (Return (Leave true), self', t') =>
      t' = t ++ [get] /\ _job_id self' = _job_id self /\
      _is_complete self' = true
  | (Return (Leave false), self', t') =>
      t' = t ++ [get] /\ self' = self /\
      exists budget, timeout = Some budget /\ (budget <= 0)%Z
  | (Return (Again timeout'), self', t') =>
      t' = t ++ [get; EvSleep poll] /\ self' = self /\
      timeout' = option_map (fun budget => (budget - poll)%Z) timeout /\
      (0 <= poll)%Z /\
      (forall budget, timeout = Some budget -> (0 < budget)%Z)
  end.
Proof.
  intros Hc get. unfold wait_turn, bind at 1. rewrite iscomplete_unfold.
  pose proof (refresh_incomplete jobs_get self t Hc) as Hframe.
  destruct (_refresh_state jobs_get self t) as [[[u|e] s1] t1];
    destruct Hframe as (-> & Hid & Hsame); [|auto].
  destruct (_is_complete s1) eqn:Hc1; [unfold ret; auto|].
  rewrite (Hsame eq_refl) in *. clear Hsame Hid.
  unfold bind, _sleep, ret.
  destruct timeout as [budget|].
  - destruct (budget <=? 0)%Z eqn:Hb.
    + apply Z.leb_le in Hb. repeat split. exists budget. auto.
    + apply Z.leb_gt in Hb. destruct (poll <? 0)%Z eqn:Hp.
      * auto.
      * apply Z.ltb_ge in Hp. rewrite <- app_assoc.
        repeat split; try assumption.
        intros b Hb'. injection Hb' as <-. exact Hb.
  - destruct (poll <? 0)%Z eqn:Hp.
    + auto.
    + apply Z.ltb_ge in Hp. rewrite <- app_assoc.
      repeat split; try assumption. intros b Hb'. discriminate Hb'.
Qed.

(** A call of [wait] that ends, on a job that was incomplete: the trace it
    leaves, and what each result says about the job and the budget. *)
Lemma wait_shape (poll : Z) (fuel : nat) :
  forall (timeout : option Z) (self : Job) (t : trace)
         (o : outcome bool) (self' : Job) (t' : trace),
    _is_complete self = false ->
    wait jobs_get fuel timeout poll self t = Some (o, self', t') ->
    exists k,
      t' = t ++ polls (_job_id self) poll k ++ [EvJobsGet (_job_id self)] /\
      _job_id self' = _job_id self /\
      (_is_complete self' = false -> self' = self) /\
      match o with
      | Return true => _is_complete self' = true
      | Return false =>
          self' = self /\
          exists budget, timeout = Some budget /\
                         (budget <= Z.of_nat k * poll)%Z
      | Raise _ => True
      end.
Proof.
  induction fuel as [|fuel IH]; intros timeout self t o self' t' Hc Hw;
    [discriminate Hw|].
  cbn [wait] in Hw.
  pose proof (wait_turn_incomplete timeout poll self t Hc) as Hturn.
  cbv zeta in Hturn.
  destruct (wait_turn jobs_get timeout poll self t) as [[[[b|timeout']|e] s1] t1].
  - injection Hw as <- <- <-. exists 0. cbn [polls app].
    destruct b.
    + destruct Hturn as (-> & Hid & Hc1). repeat split; try assumption.
      intros Hn. congruence.
    + destruct Hturn as (-> & -> & budget & -> & Hb).
      repeat split. exists budget. split; [reflexivity | lia].
  - destruct Hturn as (-> & -> & -> & Hpoll & Hpos).
    destruct (IH _ _ _ _ _ _ Hc Hw) as (k & -> & Hid & Hsame & Hres).
    exists (S k). split.
    { cbn [polls]. rewrite <- !app_assoc. reflexivity. }
    split; [exact Hid|]. split; [exact Hsame|].
    destruct o as [[|]|e]; try exact Hres.
    destruct Hres as (-> & budget' & Hb' & Hle).
    split; [reflexivity|].
    destruct timeout as [budget|]; [|discriminate Hb'].
    cbn [option_map] in Hb'. injection Hb' as <-.
    exists budget. split; [reflexivity | lia].
  - injection Hw as <- <- <-. exists 0. cbn [polls app].
    destruct Hturn as (-> & Hid & Hsame). repeat split; assumption.
Qed.



Lemma wait_turn_completes (timeout : option Z) (poll : Z) (self : Job) (t : trace)
    (self' : Job) (t' : trace) :
  _refresh_state jobs_get self t = (Return tt, self', t') ->
  _is_complete self' = true ->
  wait_turn jobs_get timeout poll self t = (Return (Leave true), self', t').
Proof.
  intros Hstep Hc'. unfold wait_turn, bind at 1. rewrite iscomplete_unfold.
  rewrite Hstep, Hc'. reflexivity.
Qed.

(** X3 ([wait] sees the completion).  When the job is found running at
    the first [k] requests, the budget (if any) lasts for them, and the
    next refresh completes the job, [wait] hands back [True] after
    exactly [k] sleeps, with the job as that refresh left it. *)
Theorem wait_returns_on_completion (fuel : nat) (timeout : option Z) (poll : Z)
    (k : nat) (self : Job) (t : trace) (self' : Job) (t' : trace) :
  _is_complete self = false ->
  (0 <= poll)%Z ->
  (forall i, i < k ->
     exists response,
       jobs_get (_job_id self) (t ++ polls (_job_id self) poll i) = Return response /\
       non_terminal response) ->
  (forall budget, timeout = Some budget ->
     k = 0 \/ ((Z.of_nat k - 1) * poll < budget)%Z) ->
  _refresh_state jobs_get self (t ++ polls (_job_id self) poll k)
  = (Return tt, self', t') ->
  _is_complete self' = true ->
  wait jobs_get (k + S fuel) timeout poll self t = Some (Return true, self', t') /\
  t' = t ++ polls (_job_id self) poll k ++ [EvJobsGet (_job_id self)].
Proof.
  intros Hc Hpoll Hrun Hbudget Hstep Hc'. split.
  - rewrite (wait_polls jobs_get poll (S fuel) self k t timeout Hc Hpoll Hrun Hbudget).
    cbn [wait]. rewrite (wait_turn_completes _ poll _ _ _ _ Hstep Hc'). reflexivity.
  - pose proof (refresh_incomplete jobs_get self
                  (t ++ polls (_job_id self) poll k) Hc) as Hframe.
    rewrite Hstep in Hframe. destruct Hframe as (-> & _).
    rewrite <- app_assoc. reflexivity.
Qed.

Lemma wait_runs_on (poll : Z) (self : Job) (fuel : nat) :
  _is_complete self = false ->
  (0 <= poll)%Z ->
  (forall h, exists response,
     jobs_get (_job_id self) h = Return response /\ non_terminal response) ->
  forall (timeout : option Z) (t : trace),
    timeout = None \/ (poll = 0%Z /\ exists budget, timeout = Some budget /\ (0 < budget)%Z) ->
    wait jobs_get fuel timeout poll self t = None.
Proof.
  intros Hc Hpoll Hrun.
  induction fuel as [|fuel IH]; intros timeout t Hto; [reflexivity|].
  cbn [wait]. destruct (Hrun t) as (response & Hr & Hnt).
  rewrite (wait_turn_running jobs_get timeout poll self t response Hc Hr Hnt).
  assert (Hp : (poll <? 0)%Z = false) by (apply Z.ltb_ge; exact Hpoll).
  destruct Hto as [-> | (Hzero & budget & -> & Hb)].
  - rewrite Hp. apply IH. left. reflexivity.
  - assert (Hpos : (budget <=? 0)%Z = false) by (apply Z.leb_gt; exact Hb).
    rewrite Hpos, Hp. apply IH. right. split; [exact Hzero|].
    exists (budget - poll)%Z. split; [reflexivity | lia].
Qed.

(** X4 (when [wait] does not end).  Against a job that never completes,
    [wait] without a timeout is still polling after any number of turns,
    and so is [wait] with a positive timeout and [poll=0]: the budget is
    reduced by [poll] only, so it never runs out. *)
Theorem wait_without_progress (self : Job) (t : trace) :
  _is_complete self = false ->
  (forall h, exists response,
     jobs_get (_job_id self) h = Return response /\ non_terminal response) ->
  (forall fuel poll, (0 <= poll)%Z -> wait jobs_get fuel None poll self t = None) /\
  (forall fuel budget,
     (0 < budget)%Z -> wait jobs_get fuel (Some budget) 0%Z self t = None).
Proof.
  intros Hc Hrun. split.
  - intros fuel poll Hpoll.
    apply (wait_runs_on poll self fuel Hc Hpoll Hrun). left. reflexivity.
  - intros fuel budget Hb.
    apply (wait_runs_on 0%Z self fuel Hc (Z.le_refl 0) Hrun). right.
    split; [reflexivity|]. exists budget. auto.
Qed.




(** *** Payloads of the wrong shape *)

Lemma py_get_not_dict (v : value) (key : string) :
  is_dict v = false -> py_get v key = Raise AttributeError.
Proof. destruct v; intros H; try reflexivity; discriminate H. Qed.

(** The loop of lines 114 to 118 stops at the first element that is not
    a dict and keeps what it appended before. *)
Lemma append_loop_stops (ds : list (list (string * value))) (bad : value)
    (rest : list value) :
  is_dict bad = false ->
  forall (self : Job) (t : trace) (l : list JobError),
    _errors self = Some l ->
    for_each (map VDict ds ++ bad :: rest) (fun error =>
        location <- lift (py_get error "location") ;;
        message <- lift (py_get error "message") ;;
        reason <- lift (py_get error "reason") ;;
        update (errors_append (mkJobError location message reason)))
      self t
    = (Raise AttributeError, with_errors (Some (l ++ map job_error_of ds)) self, t).
Proof.
  intros Hbad.
  induction ds as [|d ds IH]; intros self t l Hl; cbn [map app for_each].
  - unfold bind at 1. unfold bind at 1, lift at 1.
    rewrite (py_get_not_dict bad "location" Hbad).
    rewrite app_nil_r. unfold with_errors. rewrite <- Hl, job_eta. reflexivity.
  - unfold bind at 1. unfold bind at 1, lift at 1. rewrite py_get_dict.
    unfold bind at 1, lift at 1. rewrite py_get_dict.
    unfold bind at 1, lift at 1. rewrite py_get_dict.
    unfold update at 1.
    rewrite (IH _ t (l ++ [job_error_of d])).
    + unfold errors_append. rewrite Hl. rewrite <- app_assoc. reflexivity.
    + unfold errors_append. rewrite Hl. reflexivity.
Qed.

(** X6 (an ['errorResult'] that is not a dict).  The job is marked
    complete at line 105 before the payload is read, so when
    ['errorResult'] is not a dict the refresh raises [AttributeError]
    with the job already complete and no fatal error stored; every later
    [failed] then answers [None] from the cache, without a request. *)
Theorem error_result_not_a_dict (self : Job) (t : trace)
    (r st : list (string * value)) (v : value) :
  _is_complete self = false ->
  _fatal_error self = None ->
  jobs_get (_job_id self) t = Return (VDict r) ->
  assoc "status" r = Some (VDict st) ->
  assoc "state" st = Some (VStr "DONE") ->
  assoc "errorResult" st = Some v ->
  is_dict v = false ->
  let self' := with_is_complete true self in
  let t' := t ++ [EvJobsGet (_job_id self)] in
  _refresh_state jobs_get self t = (Raise AttributeError, self', t') /\
  forall h, failed jobs_get self' h = (Return PyNone, self', h).
Proof.
  intros Hc Hf Hr Hstatus Hstate Her Hv self' t'. split.
  - unfold _refresh_state.
    unfold bind, get_self, call_jobs_get, lift, ret, update.
    rewrite Hc, Hr. simpl. rewrite Hstatus. simpl. rewrite Hstate. simpl.
    rewrite Her. rewrite (py_get_not_dict v "location" Hv). reflexivity.
  - intros h. rewrite failed_unfold.
    rewrite (refresh_complete jobs_get self' h eq_refl).
    unfold self'. cbn. rewrite Hf. reflexivity.
Qed.

(** X7 (an element of ['errors'] that is not a dict).  When the list
    under ['errors'] starts with dicts [ds] and goes on with an element
    that is not a dict, the refresh raises [AttributeError] and leaves
    the job complete with exactly the errors parsed from [ds] (and the
    fatal error, if there was an ['errorResult']); the elements after
    the bad one are never read. *)
Theorem errors_stop_at_bad_element (self : Job) (t : trace)
    (r st : list (string * value)) (er : option (list (string * value)))
    (ds : list (list (string * value))) (bad : value) (rest : list value) :
  _is_complete self = false ->
  jobs_get (_job_id self) t = Return (VDict r) ->
  assoc "status" r = Some (VDict st) ->
  assoc "state" st = Some (VStr "DONE") ->
  assoc "errorResult" st = option_map VDict er ->
  assoc "errors" st = Some (VList (map VDict ds ++ bad :: rest)) ->
  is_dict bad = false ->
  _refresh_state jobs_get self t
  = (Raise AttributeError,
     {| _job_id := _job_id self;
        _is_complete := true;
        _errors := Some (map job_error_of ds);
        _fatal_error := match er with
                        | Some d => Some (job_error_of d)
                        | None => _fatal_error self
                        end |},
     t ++ [EvJobsGet (_job_id self)]).
Proof.
  intros Hc Hr Hstatus Hstate Her Hes Hbad.
  pose proof (append_loop_stops ds bad rest Hbad) as Hloop.
  unfold _refresh_state.
  unfold bind, get_self, call_jobs_get, lift, ret, update in *.
  rewrite Hc, Hr. simpl. rewrite Hstatus. simpl. rewrite Hstate. simpl.
  rewrite Her, Hes.
  destruct er as [d|]; cbn [option_map];
    repeat rewrite py_get_dict; cbn [py_iter]; cbv beta iota;
    rewrite (Hloop _ _ []) by reflexivity; reflexivity.
Qed.

(** X8 (an ['errors'] entry that cannot be iterated).  [_errors] is set
    to the empty list at line 113 before the entry is read, so when the
    loop header raises (as for [None], a number or a boolean) the
    exception goes through and the job is left complete with an empty
    list of errors. *)
Theorem errors_not_iterable (self : Job) (t : trace)
    (r st : list (string * value)) (er : option (list (string * value)))
    (v : value) (e : exn) :
  _is_complete self = false ->
  jobs_get (_job_id self) t = Return (VDict r) ->
  assoc "status" r = Some (VDict st) ->
  assoc "state" st = Some (VStr "DONE") ->
  assoc "errorResult" st = option_map VDict er ->
  assoc "errors" st = Some v ->
  py_iter v = Raise e ->
  e = TypeError /\
  _refresh_state jobs_get self t
  = (Raise TypeError,
     {| _job_id := _job_id self;
        _is_complete := true;
        _errors := Some [];
        _fatal_error := match er with
                        | Some d => Some (job_error_of d)
                        | None => _fatal_error self
                        end |},
     t ++ [EvJobsGet (_job_id self)]).
Proof.
  intros Hc Hr Hstatus Hstate Her Hes Hiter.
  assert (He : e = TypeError /\ py_iter v = Raise TypeError).
  { destruct v; cbn [py_iter] in Hiter; try discriminate Hiter;
      injection Hiter as <-; split; reflexivity. }
  destruct He as (-> & Hiter'). split; [reflexivity|].
  unfold _refresh_state.
  unfold bind, get_self, call_jobs_get, lift, ret, update.
  rewrite Hc, Hr. simpl. rewrite Hstatus. simpl. rewrite Hstate. simpl.
  rewrite Her, Hes.
  destruct er as [d|]; cbn [option_map];
    repeat rewrite py_get_dict; cbv beta iota; rewrite Hiter'; reflexivity.
Qed.

(** X9 (an exception while the response is tested).  When one of the
    tests and lookups of lines 102 to 104 raises (the response or its
    status is [None], a number or a boolean, or holds ['status'] without
    being a dict), the exception goes through after the one request and
    no field of the job has been assigned. *)
Theorem malformed_response_leaves_job (self : Job) (t : trace)
    (response : value) (e : exn) :
  _is_complete self = false ->
  jobs_get (_job_id self) t = Return response ->
  (py_contains response "status" = Raise e \/
   (py_contains response "status" = Return true /\
    py_getitem response "status" = Raise e) \/
   (exists status,
      py_contains response "status" = Return true /\
      py_getitem response "status" = Return status /\
      py_contains status "state" = Raise e) \/
   (exists status,
      py_contains response "status" = Return true /\
      py_getitem response "status" = Return status /\
      py_contains status "state" = Return true /\
      py_getitem status "state" = Raise e)) ->
  _refresh_state jobs_get self t = (Raise e, self, t ++ [EvJobsGet (_job_id self)]).
Proof.
  intros Hc Hr Hbad.
  unfold _refresh_state, bind, get_self, call_jobs_get, lift, ret.
  rewrite Hc, Hr.
  destruct Hbad as [H | [(H1 & H2) | [(status & H1 & H2 & H3)
                                     | (status & H1 & H2 & H3 & H4)]]].
  - rewrite H. reflexivity.
  - rewrite H1, H2. reflexivity.
  - rewrite H1, H2, H3. reflexivity.
  - rewrite H1, H2, H3, H4. reflexivity.
Qed.

(** *** What every call keeps *)

Lemma refresh_keeps (self : Job) (t : trace) :
  match _refresh_state jobs_get self t with
  | (_, self', _) =>
      _job_id self' = _job_id self /\
      (_is_complete self' = false -> self' = self)
  end.
Proof.
  destruct (_is_complete self) eqn:Hc.
  - rewrite (refresh_complete jobs_get self t Hc). auto.
  - pose proof (refresh_incomplete jobs_get self t Hc) as Hframe.
    destruct (_refresh_state jobs_get self t) as [[o self'] t'].
    destruct Hframe as (_ & Hid & Hsame). auto.
Qed.

Lemma run_op_keeps (fuel : nat) (o : op) (self : Job) (t : trace)
    (a : outcome answer) (self' : Job) (t' : trace) :
  run_op jobs_get fuel o self t = Some (a, self', t') ->
  _job_id self' = _job_id self /\
  (_is_complete self' = false -> self' = self).
Proof.
  pose proof (refresh_keeps self t) as Hkeep.
  destruct o; unfold run_op.
  - rewrite iscomplete_unfold.
    destruct (_refresh_state jobs_get self t) as [[[u|e] s1] t1];
      intros H; injection H as _ <- _; exact Hkeep.
  - rewrite failed_unfold.
    destruct (_refresh_state jobs_get self t) as [[[u|e] s1] t1];
      intros H; injection H as _ <- _; exact Hkeep.
  - rewrite fatal_error_unfold.
    destruct (_refresh_state jobs_get self t) as [[[u|e] s1] t1];
      intros H; injection H as _ <- _; exact Hkeep.
  - rewrite errors_unfold.
    destruct (_refresh_state jobs_get self t) as [[[u|e] s1] t1];
      intros H; injection H as _ <- _; exact Hkeep.
  - destruct (wait jobs_get fuel timeout poll self t) as [[[w s1] t1]|] eqn:Hw;
      [|discriminate].
    cbn [option_map answered]. intros H. injection H as _ <- _.
    destruct (_is_complete self) eqn:Hc.
    + destruct fuel as [|fuel]; [discriminate Hw|].
      rewrite (wait_complete jobs_get fuel timeout poll self t Hc) in Hw.
      injection Hw as _ <- _. auto.
    + destruct (wait_shape poll fuel timeout self t w s1 t1 Hc Hw)
        as (k & _ & Hid & Hsame & _). auto.
Qed.

Lemma run_ops_keeps (fuel : nat) (ops : list op) :
  forall (self : Job) (t : trace) (answers : list (outcome answer))
         (self' : Job) (t' : trace),
    run_ops jobs_get fuel ops self t = Some (answers, self', t') ->
    _job_id self' = _job_id self /\
    (_is_complete self' = false -> self' = self).
Proof.
  induction ops as [|o rest IH]; intros self t answers self' t' Hrun;
    cbn [run_ops] in Hrun.
  - injection Hrun as _ <- _. auto.
  - destruct (run_op jobs_get fuel o self t) as [[[a s1] t1]|] eqn:Hop;
      [|discriminate Hrun].
    destruct (run_ops jobs_get fuel rest s1 t1) as [[[answers1 s2] t2]|] eqn:Hrest;
      [|discriminate Hrun].
    injection Hrun as _ <- _.
    destruct (run_op_keeps fuel o self t a s1 t1 Hop) as (Hid1 & Hsame1).
    destruct (IH s1 t1 answers1 s2 t2 Hrest) as (Hid2 & Hsame2).
    split; [congruence|].
    intros Hc2. pose proof (Hsame2 Hc2) as Heq. subst s2.
    apply Hsame1. exact Hc2.
Qed.

(** X10 ([id] and [__repr__] never change).  Whatever the client calls
    and whatever the service answers or raises, the job keeps its id,
    and therefore its representation ['Job <id>']. *)
Theorem id_is_stable (fuel : nat) (ops : list op) (self : Job) (t : trace)
    (answers : list (outcome answer)) (self' : Job) (t' : trace) :
  run_ops jobs_get fuel ops self t = Some (answers, self', t') ->
  id self' = id self /\ __repr__ self' = __repr__ self.
Proof.
  intros Hrun.
  destruct (run_ops_keeps fuel ops self t answers self' t' Hrun) as (Hid & _).
  unfold __repr__, id. rewrite Hid. split; reflexivity.
Qed.

(** X11 (nothing is stored while the job runs).  After any sequence of
    calls, a job that is still incomplete is exactly the job the
    sequence started from; for a job fresh from [__init__] this means
    [_fatal_error] and [_errors] are [None] for as long as it is
    incomplete, as the docstrings of [fatal_error] and [errors] say. *)
Theorem untouched_while_running (fuel : nat) (ops : list op) (self : Job)
    (t : trace) (answers : list (outcome answer)) (self' : Job) (t' : trace) :
  run_ops jobs_get fuel ops self t = Some (answers, self', t') ->
  _is_complete self' = false ->
  self' = self.
Proof.
  intros Hrun Hc.
  destruct (run_ops_keeps fuel ops self t answers self' t' Hrun) as (_ & Hsame).
  apply Hsame. exact Hc.
Qed.

(** X12 ([failed] follows ['errorResult'] alone).  On a job without a
    fatal error, when the refresh of a [failed] call sees a well-formed
    ['DONE'] status, the truth value of the answer is true exactly when
    the status has an ['errorResult'] entry (even an empty dict),
    whatever the ['errors'] entry holds. *)
Theorem failed_follows_error_result (self : Job) (t : trace)
    (r st : list (string * value))
    (er : option (list (string * value)))
    (es : option (list (list (string * value)))) :
  _is_complete self = false ->
  _fatal_error self = None ->
  jobs_get (_job_id self) t = Return (VDict r) ->
  assoc "status" r = Some (VDict st) ->
  assoc "state" st = Some (VStr "DONE") ->
  assoc "errorResult" st = option_map VDict er ->
  assoc "errors" st = option_map (fun ds => VList (map VDict ds)) es ->
  exists answer self' t',
    failed jobs_get self t = (Return answer, self', t') /\
    truthy answer = match er with Some _ => true | None => false end.
Proof.
  intros Hc Hf Hr Hstatus Hstate Her Hes.
  rewrite failed_unfold.
  rewrite (refresh_done jobs_get self t r st er es Hc Hr Hstatus Hstate Her Hes).
  eexists _, _, _. split; [reflexivity|].
  cbn. destruct er; [reflexivity|]. rewrite Hf. reflexivity.
Qed.

End Further.

(** ** The further properties at work on sample services *)



(** The job runs at the first two requests and is done at the third. *)
Lemma wait_returns_on_completion_witness :
  wait (service_after 2 running_response (Return done_response)) 3 None 5%Z
    (__init__ "job") []
  = Some (Return true, done_job,
          [EvJobsGet "job"; EvSleep 5; EvJobsGet "job"; EvSleep 5; EvJobsGet "job"]).
Proof.
  refine (proj1 (wait_returns_on_completion
                   (service_after 2 running_response (Return done_response))
                   0 None 5%Z 2 (__init__ "job") [] done_job _
                   eq_refl _ _ _ eq_refl eq_refl)).
  - lia.
  - intros i Hi. exists running_response.
    split; [|exact running_response_non_terminal].
    destruct i as [|[|i]]; [reflexivity | reflexivity | lia].
  - intros budget Hb. discriminate Hb.
Defined.

Lemma wait_without_progress_witness :
  wait (service_always running_response) 7 None 5%Z (__init__ "job") [] = None /\
  wait (service_always running_response) 7 (Some 3%Z) 0%Z (__init__ "job") [] = None.
Proof.
  assert (Hrun : forall h, exists response,
             service_always running_response (_job_id (__init__ "job")) h
             = Return response /\ non_terminal response).
  { intros h. exists running_response.
    split; [reflexivity | exact running_response_non_terminal]. }
  pose proof (wait_without_progress (service_always running_response)
                (__init__ "job") [] eq_refl Hrun) as (Hnone & Hzero).
  split; [apply Hnone; lia | apply Hzero; lia].
Defined.


Lemma error_result_not_a_dict_witness :
  _refresh_state (service_always text_error_response) (__init__ "job") []
  = (Raise AttributeError, done_job, [EvJobsGet "job"]) /\
  forall h, failed (service_always text_error_response) done_job h
            = (Return PyNone, done_job, h).
Proof.
  exact (error_result_not_a_dict (service_always text_error_response)
           (__init__ "job") []
           [("status", VDict [("state", VStr "DONE"); ("errorResult", VStr "boom")])]
           [("state", VStr "DONE"); ("errorResult", VStr "boom")]
           (VStr "boom") eq_refl eq_refl eq_refl eq_refl eq_refl eq_refl eq_refl).
Defined.

Lemma errors_stop_at_bad_element_witness :
  _refresh_state (service_always mixed_errors_response) (__init__ "job") []
  = (Raise AttributeError,
     {| _job_id := "job"; _is_complete := true;
        _errors := Some [mkJobError VNone VNone (VStr "a")];
        _fatal_error := None |},
     [EvJobsGet "job"]).
Proof.
  exact (errors_stop_at_bad_element (service_always mixed_errors_response)
           (__init__ "job") []
           [("status",
             VDict [("state", VStr "DONE");
                    ("errors", VList [VDict [("reason", VStr "a")];
                                      VStr "oops";
                                      VDict [("reason", VStr "b")]])])]
           [("state", VStr "DONE");
            ("errors", VList [VDict [("reason", VStr "a")];
                              VStr "oops";
                              VDict [("reason", VStr "b")]])]
           None [[("reason", VStr "a")]] (VStr "oops")
           [VDict [("reason", VStr "b")]]
           eq_refl eq_refl eq_refl eq_refl eq_refl eq_refl eq_refl).
Defined.

Lemma errors_not_iterable_witness :
  TypeError = TypeError /\
  _refresh_state (service_always null_errors_response) (__init__ "job") []
  = (Raise TypeError,
     {| _job_id := "job"; _is_complete := true;
        _errors := Some []; _fatal_error := None |},
     [EvJobsGet "job"]).
Proof.
  exact (errors_not_iterable (service_always null_errors_response)
           (__init__ "job") []
           [("status", VDict [("state", VStr "DONE"); ("errors", VNone)])]
           [("state", VStr "DONE"); ("errors", VNone)]
           None VNone TypeError
           eq_refl eq_refl eq_refl eq_refl eq_refl eq_refl eq_refl).
Defined.

(** The service hands back [None] instead of a response. *)
Lemma malformed_response_leaves_job_witness :
  _refresh_state (service_always VNone) (__init__ "job") []
  = (Raise TypeError, __init__ "job", [EvJobsGet "job"]).
Proof.
  exact (malformed_response_leaves_job (service_always VNone) (__init__ "job") []
           VNone TypeError eq_refl eq_refl (or_introl eq_refl)).
Defined.

Lemma id_is_stable_witness :
  id {| _job_id := "job"; _is_complete := true; _errors := None;
        _fatal_error := Some (mkJobError VNone (VStr "boom") VNone) |}
  = id (__init__ "job") /\
  __repr__ {| _job_id := "job"; _is_complete := true; _errors := None;
              _fatal_error := Some (mkJobError VNone (VStr "boom") VNone) |}
  = __repr__ (__init__ "job").
Proof.
  exact (id_is_stable (service_after 2 running_response (Return boom_response)) 3
           [OpIsComplete; OpWait None 5%Z; OpErrors] (__init__ "job") []
           [Return (ABool false); Return (ABool true); Return (AErrors None)]
           _
           [EvJobsGet "job"; EvJobsGet "job"; EvSleep 5; EvJobsGet "job"]
           eq_refl).
Defined.

Lemma untouched_while_running_witness :
  run_ops (service_always running_response) 3
    [OpIsComplete; OpFailed; OpWait (Some 5%Z) 5%Z] (__init__ "job") []
  = Some ([Return (ABool false); Return (APy (PyBool false)); Return (ABool false)],
          __init__ "job",
          [EvJobsGet "job"; EvJobsGet "job"; EvJobsGet "job"; EvSleep 5;
           EvJobsGet "job"]) /\
  __init__ "job" = __init__ "job".
Proof.
  split; [reflexivity|].
  exact (untouched_while_running (service_always running_response) 3
           [OpIsComplete; OpFailed; OpWait (Some 5%Z) 5%Z] (__init__ "job") []
           [Return (ABool false); Return (APy (PyBool false)); Return (ABool false)]
           (__init__ "job")
           [EvJobsGet "job"; EvJobsGet "job"; EvJobsGet "job"; EvSleep 5;
            EvJobsGet "job"]
           eq_refl eq_refl).
Defined.

Lemma failed_follows_error_result_witness :
  exists answer self' t',
    failed (service_always boom_response) (__init__ "job") []
    = (Return answer, self', t') /\
    truthy answer = true.
Proof.
  exact (failed_follows_error_result (service_always boom_response)
           (__init__ "job") []
           [("status",
             VDict [("state", VStr "DONE");
                    ("errorResult", VDict [("message", VStr "boom")])])]
           [("state", VStr "DONE");
            ("errorResult", VDict [("message", VStr "boom")])]
           (Some [("message", VStr "boom")]) None
           eq_refl eq_refl eq_refl eq_refl eq_refl eq_refl eq_refl).
Defined.
